(** * Auth0 JWT demonstration API (NestJS): guard, exception filter, strategy
      options, startup check and message handlers.

    Shallow embedding of
      - src/auth/jwt-auth.guard.ts      (JwtAuthGuard.handleRequest)
      - src/auth/jwt.strategy.ts        (JwtStrategy constructor and validate)
      - src/http-exception.filter.ts    (errorMessages, HttpExceptionFilter.catch)
      - src/main.ts                     (checkEnvironment, bootstrap)
      - src/messages/messages.service.ts, messages.controller.ts
      - jest-setup.ts                   (the default environment of the tests)

    JavaScript values are an inductive type, [throw] is the [Throw] case of a
    completion, the config service and the [errorMessages] record are finite
    maps, and [bootstrap] runs in a small trace-and-error monad that records
    the calls made on the Nest application object. *)

From Stdlib Require Import ZArith String List Bool Lia.
From stdpp Require Import base option strings gmap.

Set Warnings "-register-all".
Local Open Scope Z_scope.

(* ------------------------------------------------------------------ *)
(** ** JavaScript values and completions *)

Module Js.

(** The values that flow through parameters typed [any].  Numbers are
    carried as integers plus [NaN]; objects are property lists; [Error]
    and [HttpException] instances are kept apart from plain objects
    because the framework tells them apart by class. *)
Inductive Value : Type :=
| Undefined
| Null
| Boolean (b : bool)
| Number (n : Z)
| NaN
| Str (s : string)
| Array (items : list Value)
| Object (props : list (string * Value))
| ErrorObj (msg : string)
| HttpExceptionObj (name : string) (status : Z) (msg : string).

(** ToBoolean: the falsy values are [undefined], [null], [false], [0],
    [NaN] and the empty string; every object is truthy. *)
Definition truthy (v : Value) : bool :=
  match v with
  | Undefined | Null | NaN => false
  | Boolean b => b
  | Number n => negb (n =? 0)
  | Str s => negb (String.eqb s "")
  | Array _ | Object _ | ErrorObj _ | HttpExceptionObj _ _ _ => true
  end.

(** [v !== undefined && v !== null] *)
Definition notNullish (v : Value) : bool :=
  match v with
  | Undefined | Null => false
  | _ => true
  end.

(** What a call ends in: a returned value or a thrown one.  An [async]
    function's promise is read the same way (resolved or rejected). *)
Inductive Completion (A : Type) : Type :=
| Return (a : A)
| Throw (thrown : Value).
Arguments Return {A} a.
Arguments Throw {A} thrown.

Definition bind {A B} (c : Completion A) (k : A -> Completion B)
  : Completion B :=
  match c with
  | Return a => k a
  | Throw e => Throw e
  end.

(** [a ?? b] with an optional left operand. *)
Definition nullish {A} (a : option A) (b : A) : A :=
  match a with
  | Some x => x
  | None => b
  end.

(** [s.endsWith(suffix)]: some tail of [s] is [suffix]. *)
Fixpoint endsWith (s suffix : string) : bool :=
  String.eqb s suffix ||
  match s with
  | EmptyString => false
  | String _ rest => endsWith rest suffix
  end.

(** Property read [o[k]] on a property list. *)
Fixpoint prop (k : string) (props : list (string * Value)) : option Value :=
  match props with
  | [] => None
  | (k', v) :: rest => if String.eqb k k' then Some v else prop k rest
  end.

End Js.

Notation "a ?? b" := (Js.nullish a b) (at level 45, left associativity).

(* ------------------------------------------------------------------ *)
(** ** HTTP exceptions of the framework *)

Module Http.

Definition UNAUTHORIZED : Z := 401.
Definition FORBIDDEN : Z := 403.
Definition NOT_FOUND : Z := 404.
Definition INTERNAL_SERVER_ERROR : Z := 500.

(** An [HttpException] instance: its class name, [getStatus()] and
    [message]. *)
Record HttpException : Type := mkHttpException {
  name : string;
  getStatus : Z;
  message : string
}.

(** [new UnauthorizedException(msg)]: the subclass fixes the status. *)
Definition UnauthorizedException (msg : string) : HttpException :=
  mkHttpException "UnauthorizedException" UNAUTHORIZED msg.

Definition toValue (e : HttpException) : Js.Value :=
  Js.HttpExceptionObj (name e) (getStatus e) (message e).

End Http.

(* ------------------------------------------------------------------ *)
(** ** src/models/messages.ts *)

Record Message : Type := { text : string }.

Record ErrorMessage : Type := { message : string }.

(* ------------------------------------------------------------------ *)
(** ** src/auth/jwt-auth.guard.ts *)

Module JwtAuthGuard.

(** [handleRequest(err, user, _info, _context, _status)]. *)
Definition handleRequest (err user _info _context _status : Js.Value)
  : Js.Completion Js.Value :=
  if Js.notNullish err then
    Js.Throw err
  else if negb (Js.truthy user) then
    Js.Throw
      (Http.toValue (Http.UnauthorizedException "Requires authentication"))
  else
    Js.Return user.

End JwtAuthGuard.

(* ------------------------------------------------------------------ *)
(** ** The config service: environment variables by name *)

Module ConfigService.

(** [configService.get<string>(key)] is [undefined] for an unset name. *)
Definition get (config : gmap string string) (key : string) : option string :=
  config !! key.

End ConfigService.

(* ------------------------------------------------------------------ *)
(** ** src/auth/jwt.strategy.ts *)

Module JwtStrategy.

(** The decoded claims object: claim names to values. *)
Definition JwtPayload : Type := list (string * Js.Value).

(** Options of [passportJwtSecret]. *)
Record JwksOptions : Type := {
  cache : bool;
  rateLimit : bool;
  jwksRequestsPerMinute : Z;
  jwksUri : string
}.

(** Options handed to the passport-jwt [Strategy] by [super({...})];
    [jwtFromRequest] is always [ExtractJwt.fromAuthHeaderAsBearerToken()]. *)
Record StrategyOptions : Type := {
  ignoreExpiration : bool;
  secretOrKeyProvider : JwksOptions;
  audience : string;
  issuer : string;
  algorithms : list string
}.

Definition constructor (configService : gmap string string)
  : StrategyOptions :=
  let issuerBaseUrl : string :=
    ConfigService.get configService "AUTH0_ISSUER_BASE_URL" ?? "" in
  let audience : string :=
    ConfigService.get configService "AUTH0_AUDIENCE" ?? "" in
  let jwksUri : string :=
    if Js.endsWith issuerBaseUrl "/"
    then issuerBaseUrl +:+ ".well-known/jwks.json"
    else issuerBaseUrl +:+ "/.well-known/jwks.json" in
  {| ignoreExpiration := false;
     secretOrKeyProvider :=
       {| cache := true;
          rateLimit := true;
          jwksRequestsPerMinute := 5;
          jwksUri := jwksUri |};
     audience := audience;
     issuer :=
       if Js.endsWith issuerBaseUrl "/"
       then issuerBaseUrl
       else issuerBaseUrl +:+ "/";
     algorithms := ["RS256"] |}.

Definition validate (payload : JwtPayload) : JwtPayload := payload.

End JwtStrategy.

(* ------------------------------------------------------------------ *)
(** ** src/http-exception.filter.ts *)

Module HttpExceptionFilter.

(** What [response.status(..).json(..)] leaves on the Express response. *)
Record Response (B : Type) : Type := mkResponse {
  statusCode : option Z;
  body : option B
}.
Arguments mkResponse {B} statusCode body.
Arguments statusCode {B} r.
Arguments body {B} r.

Definition fresh {B} : Response B := mkResponse None None.

Definition status {B} (code : Z) (r : Response B) : Response B :=
  mkResponse (Some code) (body r).

Definition json {B} (b : B) (r : Response B) : Response B :=
  mkResponse (statusCode r) (Some b).

Definition errorMessages : gmap Z string :=
  <[ Http.NOT_FOUND := "Not Found"%string ]>
    (<[ Http.INTERNAL_SERVER_ERROR := "Internal server error"%string ]> ∅).

(** [catch(exception, host)], with [host.switchToHttp().getResponse()]
    passed as [response]. *)
Definition catch (exception : Http.HttpException)
  (response : Response ErrorMessage) : Response ErrorMessage :=
  let status_ : Z := Http.getStatus exception in
  let body_ : ErrorMessage :=
    {| message := errorMessages !! status_ ?? Http.message exception |} in
  json body_ (status status_ response).

End HttpExceptionFilter.

(* ------------------------------------------------------------------ *)
(** ** src/main.ts *)

Module Main.

Definition requiredEnvVars : list string :=
  ["PORT"; "AUTH0_ISSUER_BASE_URL"; "AUTH0_AUDIENCE"; "CLIENT_ORIGIN_URL"]%string.

(** [value === undefined || value === ''] *)
Definition missing (value : option string) : bool :=
  match value with
  | None => true
  | Some v => String.eqb v ""
  end.

(** The [for (const envVar of ...)] loop of [checkEnvironment]. *)
Fixpoint checkEach (envVars : list string) (configService : gmap string string)
  : Js.Completion unit :=
  match envVars with
  | [] => Js.Return tt
  | envVar :: rest =>
      let value := ConfigService.get configService envVar in
      if missing value then
        Js.Throw (Js.ErrorObj ("Undefined environment variable: " +:+ envVar))
      else checkEach rest configService
  end.

Definition checkEnvironment (configService : gmap string string)
  : Js.Completion unit :=
  checkEach requiredEnvVars configService.

(** Arguments of the calls [bootstrap] makes on the application. *)
Record CorsOptions : Type := {
  origin : option string;
  methods : list string;
  allowedHeaders : list string;
  maxAge : Z
}.

Record HelmetOptions : Type := {
  hstsMaxAge : Z;
  frameguardAction : string;
  cspDirectives : list (string * list string)
}.

Inductive Middleware : Type :=
| nocache
| helmet (opts : HelmetOptions).

(** [port: string | number] *)
Inductive Port : Type :=
| PortString (s : string)
| PortNumber (n : Z).

Inductive AppCall : Type :=
| setGlobalPrefix (prefix : string)
| useGlobalFilters
| use (mw : Middleware)
| enableCors (opts : CorsOptions)
| listen (port : Port).

(** Calls made so far on [app], and how the step ended. *)
Definition Boot (A : Type) : Type :=
  list AppCall -> list AppCall * Js.Completion A.

Definition ret {A} (a : A) : Boot A := fun calls => (calls, Js.Return a).

Definition seq {A B} (m : Boot A) (k : A -> Boot B) : Boot B :=
  fun calls =>
    match m calls with
    | (calls', Js.Return a) => k a calls'
    | (calls', Js.Throw e) => (calls', Js.Throw e)
    end.

Definition lift {A} (c : Js.Completion A) : Boot A := fun calls => (calls, c).

(** A call on [app]: it is recorded, and it ends as [outcome] says. *)
Definition app (c : AppCall) (outcome : Js.Completion unit) : Boot unit :=
  fun calls => (calls ++ [c], outcome).

(** The calls that store a setting on the application (prefix, filters,
    middleware, CORS) and return. *)
Definition configure (c : AppCall) : Boot unit := app c (Js.Return tt).

Declare Scope boot_scope.
Delimit Scope boot_scope with boot.
Notation "m ;; k" := (seq m (fun _ => k))
  (at level 100, k at level 200, right associativity) : boot_scope.

(** [bootstrap()], for the config service the created application holds.
    [listening port] is how [await app.listen(port)] ends: the socket is
    bound and the call returns, or the call rejects (a port out of range,
    an address in use) and [bootstrap] rejects with it. *)
Definition bootstrap (listening : Port -> Js.Completion unit)
  (configService : gmap string string) : Boot unit :=
 (lift (checkEnvironment configService) ;;
  configure (setGlobalPrefix "api") ;;
  configure useGlobalFilters ;;
  configure (use nocache) ;;
  configure (enableCors
         {| origin := ConfigService.get configService "CLIENT_ORIGIN_URL";
            methods := ["GET"%string];
            allowedHeaders := ["Authorization"; "Content-Type"]%string;
            maxAge := 86400 |}) ;;
  configure (use (helmet
         {| hstsMaxAge := 31536000;
            frameguardAction := "deny";
            cspDirectives :=
              [("default-src", ["'self'"]);
               ("frame-ancestors", ["'none'"])]%string |})) ;;
  let port : Port :=
    (PortString <$> ConfigService.get configService "PORT") ?? PortNumber 6060 in
  app (listen port) (listening port))%boot.

(** The ports [listen] was called with, in order. *)
Definition listened (calls : list AppCall) : list Port :=
  omap (fun c => match c with listen p => Some p | _ => None end) calls.

End Main.

(* ------------------------------------------------------------------ *)
(** ** src/messages/messages.service.ts *)

Module MessagesService.

(** The service has no fields. *)
Inductive t : Type := new.

Definition getPublicMessage (this : t) : Message :=
  {| text := "This is a public message." |}.

Definition getProtectedMessage (this : t) : Message :=
  {| text := "This is a protected message." |}.

Definition getAdminMessage (this : t) : Message :=
  {| text := "This is an admin message." |}.

End MessagesService.

(* ------------------------------------------------------------------ *)
(** ** src/messages/messages.controller.ts *)

Module MessagesController.

Record t : Type := new { messagesService : MessagesService.t }.

Definition getPublic (this : t) : Js.Completion Message :=
  Js.Return (MessagesService.getPublicMessage (messagesService this)).

Definition getProtected (this : t) : Js.Completion Message :=
  Js.Return (MessagesService.getProtectedMessage (messagesService this)).

Definition getAdmin (this : t) : Js.Completion Message :=
  Js.Return (MessagesService.getAdminMessage (messagesService this)).

(** The three [@Get] routes of [@Controller('messages')]. *)
Inductive Route : Type := public | protected | admin.

Definition handler (this : t) (r : Route) : Js.Completion Message :=
  match r with
  | public => getPublic this
  | protected => getProtected this
  | admin => getAdmin this
  end.

(** [@UseGuards(JwtAuthGuard)] is on [getProtected] and [getAdmin] only. *)
Definition useGuards (r : Route) : bool :=
  match r with
  | public => false
  | protected | admin => true
  end.

(** A request as the guard and the handlers can see it: any headers and
    the [user] slot the guard fills. *)
Record Request : Type := {
  headers : list (string * string);
  user : option Js.Value
}.

(** One request to route [r]: the guard (when the route has one) runs
    before the handler; a guard that throws keeps the handler from
    running, and a guard answering [false] is the framework's 403. *)
Definition dispatch (canActivate : Request -> Js.Completion bool)
  (this : t) (r : Route) (req : Request) : Js.Completion Message :=
  if useGuards r then
    Js.bind (canActivate req) (fun allowed =>
      if (allowed : bool) then handler this r
      else Js.Throw (Js.HttpExceptionObj "ForbiddenException" Http.FORBIDDEN
                       "Forbidden resource"))
  else handler this r.

End MessagesController.

(* ------------------------------------------------------------------ *)
(** ** Token verification and guard activation

    passport-jwt, jsonwebtoken and jwks-rsa are libraries outside the
    repository; what they do with the options of [JwtStrategy.constructor]
    is modelled from the specification (sections 4.1 and 4.2).  Decoding,
    key resolution, the signature primitive and the clock are parameters. *)

Module TokenVerifier.

(** Modelled from the spec: the failure taxonomy of section 7. *)
Inductive FailureReason : Type :=
| MalformedToken
| KeyResolutionFailed
| SignatureInvalid
| TokenExpired
| AudienceMismatch
| IssuerMismatch.

(** Modelled from the spec: the Verification Outcome of section 3, "either
    a Claim Set (success) or a failure reason". *)
Inductive VerificationOutcome : Type :=
| Verified (claims : JwtStrategy.JwtPayload)
| Failed (reason : FailureReason).

(** Modelled from the spec: the decoded header segment, with the declared
    algorithm and the key identifier. *)
Record Header : Type := { alg : string; kid : option string }.

(** Modelled from the spec: the failure detail handed on as passport's
    [info]; the guard ignores it. *)
Definition reasonInfo (reason : FailureReason) : Js.Value :=
  Js.Str match reason with
         | MalformedToken => "jwt malformed"
         | KeyResolutionFailed => "key resolution failed"
         | SignatureInvalid => "invalid signature"
         | TokenExpired => "jwt expired"
         | AudienceMismatch => "jwt audience invalid"
         | IssuerMismatch => "jwt issuer invalid"
         end.

Section External.

Variable Key : Type.
(** Three dot-separated segments, base64url and JSON decoding. *)
Variable decode : string -> option (Header * JwtStrategy.JwtPayload).
(** The Key Resolver: a key, no key, or an unexpected error raised. *)
Variable resolveKey : option string -> Js.Completion (option Key).
(** The signature primitive, for a key, an algorithm name and a token. *)
Variable signatureValid : Key -> string -> string -> bool.
(** Current time, in seconds. *)
Variable now : Z.

(** Modelled from the spec: "rejects with TokenExpired if the expiration
    claim is present and not in the future (strictly greater than current
    time required)". *)
Definition expired (claims : JwtStrategy.JwtPayload) : bool :=
  match Js.prop "exp" claims with
  | None => false
  | Some (Js.Number e) => negb (now <? e)
  | Some _ => true
  end.

(** Modelled from the spec: "the audience claim (a single value or a set
    of values) does not contain expectedAudience". *)
Definition audienceContains (expected : string)
  (claims : JwtStrategy.JwtPayload) : bool :=
  match Js.prop "aud" claims with
  | Some (Js.Str a) => String.eqb a expected
  | Some (Js.Array items) =>
      existsb (fun v => match v with
                        | Js.Str a => String.eqb a expected
                        | _ => false
                        end) items
  | _ => false
  end.

(** Modelled from the spec: "the issuer claim does not exactly equal
    expectedIssuer". *)
Definition issuerEquals (expected : string)
  (claims : JwtStrategy.JwtPayload) : bool :=
  match Js.prop "iss" claims with
  | Some (Js.Str i) => String.eqb i expected
  | _ => false
  end.

(** Modelled from the spec: the checks of section 4.1 once the key is
    resolved, in the order the section lists them; a header algorithm
    outside [algorithms] fails signature verification. *)
Definition verifyWithKey (opts : JwtStrategy.StrategyOptions)
  (token : string) (header : Header) (claims : JwtStrategy.JwtPayload)
  (key : Key) : VerificationOutcome :=
  if negb (existsb (String.eqb (alg header)) (JwtStrategy.algorithms opts))
  then Failed SignatureInvalid
  else if negb (signatureValid key (alg header) token)
  then Failed SignatureInvalid
  else if negb (JwtStrategy.ignoreExpiration opts) && expired claims
  then Failed TokenExpired
  else if negb (audienceContains (JwtStrategy.audience opts) claims)
  then Failed AudienceMismatch
  else if negb (issuerEquals (JwtStrategy.issuer opts) claims)
  then Failed IssuerMismatch
  else Verified claims.

(** Modelled from the spec: the Token Verifier of section 4.1 (the
    passport-jwt strategy with jsonwebtoken, absent from the sources),
    run with the options [JwtStrategy.constructor] passes to it. *)
Definition verify (opts : JwtStrategy.StrategyOptions) (token : string)
  : Js.Completion VerificationOutcome :=
  match decode token with
  | None => Js.Return (Failed MalformedToken)
  | Some (header, claims) =>
      Js.bind (resolveKey (kid header)) (fun resolved =>
        Js.Return
          match resolved with
          | None => Failed KeyResolutionFailed
          | Some key => verifyWithKey opts token header claims key
          end)
  end.

(** Modelled from the spec: [ExtractJwt.fromAuthHeaderAsBearerToken()],
    "expects the literal scheme prefix Bearer followed by the token". *)
Definition fromAuthHeaderAsBearerToken (req : MessagesController.Request)
  : option string :=
  match List.find (fun h => String.eqb (fst h) "authorization")
                  (MessagesController.headers req) with
  | Some (_, value) =>
      if String.prefix "Bearer " value
      then Some (String.substring 7 (String.length value - 7) value)
      else None
  | None => None
  end.

(** Modelled from the spec: a missing header or a wrong scheme "is
    treated identically to an invalid token". *)
Definition verifyRequest (opts : JwtStrategy.StrategyOptions)
  (req : MessagesController.Request) : Js.Completion VerificationOutcome :=
  match fromAuthHeaderAsBearerToken req with
  | None => Js.Return (Failed MalformedToken)
  | Some token => verify opts token
  end.

(** Modelled from the spec: [activate] of section 4.2, that is
    [AuthGuard('jwt').canActivate] calling back into
    [JwtAuthGuard.handleRequest] with (err, user, info): a raised error as
    [err], a rejection as user [false], a success as the result of
    [JwtStrategy.validate]; the returned user is put on the request. *)
Definition activate (opts : JwtStrategy.StrategyOptions)
  (req : MessagesController.Request)
  : Js.Completion (bool * MessagesController.Request) :=
  let attach (u : Js.Value) :=
    Js.Return (true, {| MessagesController.headers :=
                          MessagesController.headers req;
                        MessagesController.user := Some u |}) in
  match verifyRequest opts req with
  | Js.Throw err =>
      Js.bind (JwtAuthGuard.handleRequest err Js.Undefined Js.Undefined
                 Js.Undefined Js.Undefined) attach
  | Js.Return (Failed reason) =>
      Js.bind (JwtAuthGuard.handleRequest Js.Null (Js.Boolean false)
                 (reasonInfo reason) Js.Undefined Js.Undefined) attach
  | Js.Return (Verified claims) =>
      Js.bind (JwtAuthGuard.handleRequest Js.Null
                 (Js.Object (JwtStrategy.validate claims))
                 Js.Undefined Js.Undefined Js.Undefined) attach
  end.

(** Modelled from the spec: "returns success (true) so that the handler
    runs", or raises. *)
Definition canActivate (opts : JwtStrategy.StrategyOptions)
  (req : MessagesController.Request) : Js.Completion bool :=
  Js.bind (activate opts req) (fun r => Js.Return (fst r)).

(** Modelled from the spec: how one request is answered: 200 with the
    handler's payload, or the response written by the filter, which is
    declared [@Catch(HttpException)], or a thrown value that is not an
    [HttpException] and so not the filter's. *)
Inductive Reply : Type :=
| Payload (m : Message)
| Caught (response : HttpExceptionFilter.Response ErrorMessage)
| Uncaught (thrown : Js.Value).

(** Modelled from the spec: the control flow of section 2, "inbound
    request, Authentication Guard (for protected routes only), Request
    Handler, response; any failure is caught by the Error Responder". *)
Definition serve (configService : gmap string string)
  (this : MessagesController.t) (r : MessagesController.Route)
  (req : MessagesController.Request) : Reply :=
  match MessagesController.dispatch
          (canActivate (JwtStrategy.constructor configService)) this r req with
  | Js.Return m => Payload m
  | Js.Throw (Js.HttpExceptionObj name st msg) =>
      Caught (HttpExceptionFilter.catch (Http.mkHttpException name st msg)
                HttpExceptionFilter.fresh)
  | Js.Throw v => Uncaught v
  end.

End External.

End TokenVerifier.

(* ------------------------------------------------------------------ *)
(** ** jest-setup.ts: the environment the tests run in *)

Definition testEnvironment : gmap string string :=
  list_to_map
    [("AUTH0_ISSUER_BASE_URL", "https://test-tenant.auth0.com/");
     ("AUTH0_AUDIENCE", "https://test-api.example.com");
     ("CLIENT_ORIGIN_URL", "http://localhost:4040");
     ("PORT", "6061")]%string.

(** The same with the audience left empty. *)
Definition emptyAudienceEnvironment : gmap string string :=
  <[ "AUTH0_AUDIENCE"%string := ""%string ]> testEnvironment.

(** The failure column of the route table: 401 with the generic body. *)
Definition requiresAuthentication : HttpExceptionFilter.Response ErrorMessage :=
  HttpExceptionFilter.mkResponse (Some 401)
    (Some {| message := "Requires authentication" |}).

(* ------------------------------------------------------------------ *)
(** ** jest-setup.ts: the assignments made before the tests *)

Module JestSetup.

(** [process.env.NAME = process.env.NAME ?? fallback] *)
Definition assignDefault (name fallback : string) (env : gmap string string)
  : gmap string string :=
  <[ name := (env !! name) ?? fallback ]> env.

(** The four assignments of the file, in its order. *)
Definition run (env : gmap string string) : gmap string string :=
  let env1 :=
    assignDefault "AUTH0_ISSUER_BASE_URL" "https://test-tenant.auth0.com/" env in
  let env2 :=
    assignDefault "AUTH0_AUDIENCE" "https://test-api.example.com" env1 in
  let env3 :=
    assignDefault "CLIENT_ORIGIN_URL" "http://localhost:4040" env2 in
  assignDefault "PORT" "6061" env3.

End JestSetup.

(* ================================================================== *)
(** * Properties *)

(* ------------------------------------------------------------------ *)
(** ** The guard's [handleRequest] *)

Section GuardProperties.

Import Js.

Lemma notNullish_false (v : Value) :
  notNullish v = false <-> v = Null \/ v = Undefined.
Proof.
  split.
  - destruct v; simpl; intros H; try discriminate H; auto.
  - intros [-> | ->]; reflexivity.
Qed.

Lemma notNullish_true (v : Value) :
  notNullish v = true <-> v <> Undefined /\ v <> Null.
Proof.
  split.
  - destruct v; simpl; intros H; try discriminate H; split; discriminate.
  - intros [Hu Hn]. destruct v; simpl; congruence.
Qed.

(** C1: when [handleRequest] is called with [err] null or undefined and a
    falsy [user], it throws an [UnauthorizedException] with status 401 and
    the message "Requires authentication", whatever [info] (which carries
    the failure detail), the context and the status argument are. *)
Theorem handleRequest_requires_authentication
  (err user info context status : Value) :
  err = Null \/ err = Undefined ->
  truthy user = false ->
  JwtAuthGuard.handleRequest err user info context status
  = Throw (HttpExceptionObj "UnauthorizedException" 401
            "Requires authentication").
Proof.
  intros Herr Huser. unfold JwtAuthGuard.handleRequest.
  apply notNullish_false in Herr. rewrite Herr, Huser. reflexivity.
Qed.

Lemma handleRequest_requires_authentication_witness :
  JwtAuthGuard.handleRequest Null (Boolean false) (Str "jwt expired")
    Undefined Undefined
  = Throw (HttpExceptionObj "UnauthorizedException" 401
            "Requires authentication").
Proof.
  apply (handleRequest_requires_authentication
           Null (Boolean false) (Str "jwt expired") Undefined Undefined).
  - left. reflexivity.
  - reflexivity.
Defined.

(** C3: when [err] is neither undefined nor null, [handleRequest] throws
    that very value, whatever [user] is (a validated user included), and so
    never the generic 401 exception in its place. *)
Theorem handleRequest_rethrows_err
  (err user info context status : Value) :
  err <> Undefined -> err <> Null ->
  JwtAuthGuard.handleRequest err user info context status = Throw err.
Proof.
  intros Hu Hn. unfold JwtAuthGuard.handleRequest.
  assert (H : notNullish err = true) by (apply notNullish_true; auto).
  rewrite H. reflexivity.
Qed.

Lemma handleRequest_rethrows_err_witness :
  JwtAuthGuard.handleRequest (ErrorObj "Invalid token")
    (Object [("sub"%string, Str "user-1")]) Undefined Undefined Undefined
  = Throw (ErrorObj "Invalid token").
Proof.
  apply (handleRequest_rethrows_err (ErrorObj "Invalid token")
           (Object [("sub"%string, Str "user-1")])
           Undefined Undefined Undefined); discriminate.
Defined.

(** C9: [validate] is the identity on the payload, and with [err] null or
    undefined [handleRequest] returns a truthy [user] as it is; composed,
    the decoded claims object reaches the request unchanged. *)
Theorem validated_claims_attached_unchanged
  (payload : JwtStrategy.JwtPayload) (err user info context status : Value) :
  err = Null \/ err = Undefined ->
  truthy user = true ->
  JwtStrategy.validate payload = payload /\
  JwtAuthGuard.handleRequest err user info context status = Return user /\
  JwtAuthGuard.handleRequest err (Object (JwtStrategy.validate payload))
    info context status = Return (Object payload).
Proof.
  intros Herr Huser. apply notNullish_false in Herr.
  unfold JwtAuthGuard.handleRequest, JwtStrategy.validate.
  rewrite Herr, Huser. simpl. auto.
Qed.

Lemma validated_claims_attached_unchanged_witness :
  JwtStrategy.validate [("sub"%string, Str "user-123")]
  = [("sub"%string, Str "user-123")] /\
  JwtAuthGuard.handleRequest Null (Object [("sub"%string, Str "user-123")])
    Null Undefined Undefined
  = Return (Object [("sub"%string, Str "user-123")]) /\
  JwtAuthGuard.handleRequest Null
    (Object (JwtStrategy.validate [("sub"%string, Str "user-123")]))
    Null Undefined Undefined
  = Return (Object [("sub"%string, Str "user-123")]).
Proof.
  apply (validated_claims_attached_unchanged
           [("sub"%string, Str "user-123")] Null
           (Object [("sub"%string, Str "user-123")]) Null Undefined Undefined).
  - left. reflexivity.
  - reflexivity.
Defined.

End GuardProperties.

(* ------------------------------------------------------------------ *)
(** ** The exception filter *)

Section FilterProperties.

Import HttpExceptionFilter.

Lemma errorMessages_lookup (st : Z) :
  errorMessages !! st =
  if decide (st = 404) then Some "Not Found"%string
  else if decide (st = 500) then Some "Internal server error"%string
  else None.
Proof.
  unfold errorMessages, Http.NOT_FOUND, Http.INTERNAL_SERVER_ERROR.
  destruct (decide (st = 404)) as [-> | H404].
  - apply lookup_insert_eq.
  - rewrite lookup_insert_ne by congruence.
    destruct (decide (st = 500)) as [-> | H500].
    + apply lookup_insert_eq.
    + rewrite lookup_insert_ne by congruence. apply lookup_empty.
Qed.

(** C2: [catch] writes the exception's status and the body [{message}],
    where the message is "Not Found" for 404, "Internal server error" for
    500 (the exception's own text is dropped) and the exception's own
    message for every other status, 401 "Requires authentication"
    included. *)
Theorem catch_status_and_message
  (exception : Http.HttpException) (response : Response ErrorMessage) :
  let st := Http.getStatus exception in
  let written := catch exception response in
  statusCode written = Some st /\
  body written =
    Some {| message :=
              if decide (st = 404) then "Not Found"
              else if decide (st = 500) then "Internal server error"
              else Http.message exception |} /\
  catch (Http.UnauthorizedException "Requires authentication") response
  = mkResponse (Some 401) (Some {| message := "Requires authentication" |}).
Proof.
  simpl. unfold catch, json, status. simpl.
  rewrite errorMessages_lookup.
  split; [reflexivity |]. split.
  - destruct (decide (Http.getStatus exception = 404)); [reflexivity |].
    destruct (decide (Http.getStatus exception = 500)); reflexivity.
  - rewrite errorMessages_lookup. reflexivity.
Qed.

End FilterProperties.

(* ------------------------------------------------------------------ *)
(** ** The strategy's options *)

Section StrategyProperties.

Import Js.

Lemma endsWith_slash_split (s : string) :
  endsWith s "/" = true -> exists stem, s = stem +:+ "/".
Proof.
  induction s as [| a rest IH]; cbn [endsWith].
  - rewrite orb_false_r. intros H. apply String.eqb_eq in H. discriminate H.
  - intros H. apply orb_true_iff in H as [H | H].
    + apply String.eqb_eq in H. exists ""%string. exact H.
    + destruct (IH H) as [stem ->]. exists (String a stem). reflexivity.
Qed.

Lemma endsWith_append_slash (stem : string) :
  endsWith (stem +:+ "/") "/" = true.
Proof.
  induction stem as [| a rest IH].
  - reflexivity.
  - change (String a rest +:+ "/")%string with (String a (rest +:+ "/")).
    cbn [endsWith]. rewrite IH. apply orb_true_r.
Qed.

Lemma append_assoc (a b c : string) : (a +:+ b) +:+ c = a +:+ (b +:+ c).
Proof.
  induction a as [| x a IH]; [reflexivity |].
  change (String x ((a +:+ b) +:+ c) = String x (a +:+ (b +:+ c))).
  now rewrite IH.
Qed.

(** C6: for a configured issuer base URL [base], the JWKS endpoint is
    [base] and ".well-known/jwks.json" with exactly one "/" between them
    (the one [base] ends with, or one added when it ends with none), and
    the expected issuer is [base] itself when it ends with "/" and [base]
    followed by "/" otherwise, so it always ends with "/". *)
Theorem jwks_uri_and_issuer_normalised
  (configService : gmap string string) (base : string) :
  ConfigService.get configService "AUTH0_ISSUER_BASE_URL" = Some base ->
  let opts := JwtStrategy.constructor configService in
  let uri := JwtStrategy.jwksUri (JwtStrategy.secretOrKeyProvider opts) in
  JwtStrategy.issuer opts
    = (if endsWith base "/" then base else base +:+ "/") /\
  endsWith (JwtStrategy.issuer opts) "/" = true /\
  uri = JwtStrategy.issuer opts +:+ ".well-known/jwks.json" /\
  exists stem,
    (endsWith base "/" = true /\ base = stem +:+ "/" \/
     endsWith base "/" = false /\ base = stem) /\
    uri = stem +:+ "/" +:+ ".well-known/jwks.json" /\
    JwtStrategy.issuer opts = stem +:+ "/".
Proof.
  intros Hbase. unfold JwtStrategy.constructor. rewrite Hbase. simpl.
  destruct (endsWith base "/") eqn:E.
  - split; [reflexivity |]. split; [exact E |]. split; [reflexivity |].
    destruct (endsWith_slash_split base E) as [stem ->].
    exists stem. split; [left; auto |]. split; [| reflexivity].
    apply append_assoc.
  - split; [reflexivity |]. split; [apply endsWith_append_slash |].
    split; [symmetry; apply (append_assoc base "/") |].
    exists base. split; [right; auto |]. split; reflexivity.
Qed.

Lemma jwks_uri_and_issuer_normalised_witness :
  let configService : gmap string string :=
    {[ "AUTH0_ISSUER_BASE_URL"%string := "https://test-tenant.auth0.com"%string ]} in
  let opts := JwtStrategy.constructor configService in
  JwtStrategy.jwksUri (JwtStrategy.secretOrKeyProvider opts)
    = "https://test-tenant.auth0.com/.well-known/jwks.json"%string /\
  JwtStrategy.issuer opts = "https://test-tenant.auth0.com/"%string.
Proof.
  intros configService opts.
  destruct (jwks_uri_and_issuer_normalised configService
              "https://test-tenant.auth0.com")
    as (Hiss & _ & Huri & _).
  - unfold ConfigService.get, configService. apply lookup_singleton_eq.
  - fold opts in Hiss, Huri. split.
    + rewrite Huri, Hiss. reflexivity.
    + rewrite Hiss. reflexivity.
Defined.

End StrategyProperties.

(* ------------------------------------------------------------------ *)
(** ** Startup *)

Section StartupProperties.

Import Js Main.

Lemma checkEach_throws (envVars : list string) (cfg : gmap string string) :
  (exists v, In v envVars /\ missing (ConfigService.get cfg v) = true) ->
  exists v, In v envVars /\ missing (ConfigService.get cfg v) = true /\
            checkEach envVars cfg
              = Throw (ErrorObj ("Undefined environment variable: " +:+ v)).
Proof.
  induction envVars as [| e rest IH]; intros (v & Hin & Hv).
  - destruct Hin.
  - cbn [checkEach].
    destruct (missing (ConfigService.get cfg e)) eqn:He.
    + exists e. split; [left; reflexivity |]. split; [exact He | reflexivity].
    + destruct Hin as [-> | Hin]; [congruence |].
      destruct IH as (w & Hw & Hm & Hc); [exists v; auto |].
      exists w. split; [right; exact Hw |]. split; assumption.
Qed.

Lemma checkEach_returns (envVars : list string) (cfg : gmap string string) :
  (forall v, In v envVars -> missing (ConfigService.get cfg v) = false) <->
  checkEach envVars cfg = Return tt.
Proof.
  induction envVars as [| e rest IH]; cbn [checkEach].
  - split; [reflexivity | intros _ v []].
  - destruct (missing (ConfigService.get cfg e)) eqn:He.
    + split; [| discriminate].
      intros H. specialize (H e (or_introl eq_refl)). congruence.
    + rewrite <- IH. split.
      * intros H v Hv. apply H. right. exact Hv.
      * intros H v [<- | Hv]; [exact He | apply H, Hv].
Qed.

Lemma bootstrap_after_throw (listening : Port -> Completion unit)
  (cfg : gmap string string) (e : Value) (calls : list AppCall) :
  checkEnvironment cfg = Throw e ->
  bootstrap listening cfg calls = (calls, Throw e).
Proof.
  intros H. unfold bootstrap, seq, lift. rewrite H. reflexivity.
Qed.

Lemma bootstrap_after_return (listening : Port -> Completion unit)
  (cfg : gmap string string) (calls : list AppCall) :
  checkEnvironment cfg = Return tt ->
  let port :=
    (PortString <$> ConfigService.get cfg "PORT") ?? PortNumber 6060 in
  listened (fst (bootstrap listening cfg calls)) = listened calls ++ [port] /\
  snd (bootstrap listening cfg calls) = listening port.
Proof.
  intros H port. unfold bootstrap, seq, lift, configure, app. rewrite H.
  cbn [fst snd]. split; [| reflexivity].
  unfold listened. rewrite <- !app_assoc. rewrite omap_app. reflexivity.
Qed.

(** C7: if one of PORT, AUTH0_ISSUER_BASE_URL, AUTH0_AUDIENCE and
    CLIENT_ORIGIN_URL is undefined or the empty string, [checkEnvironment]
    throws an [Error] whose message names such a variable, and [bootstrap]
    ends with that error having made no call on the application, [listen]
    included, however [listen] would have ended; if all four are supplied
    non-empty, [checkEnvironment] returns. *)
Theorem checkEnvironment_fail_fast (listening : Port -> Completion unit)
  (configService : gmap string string) :
  ((exists v, In v requiredEnvVars /\
              missing (ConfigService.get configService v) = true) ->
   exists v, In v requiredEnvVars /\
             missing (ConfigService.get configService v) = true /\
             checkEnvironment configService
               = Throw (ErrorObj ("Undefined environment variable: " +:+ v)) /\
             (forall calls,
                bootstrap listening configService calls
                  = (calls,
                     Throw (ErrorObj ("Undefined environment variable: " +:+ v))))
             /\ listened (fst (bootstrap listening configService [])) = []) /\
  ((forall v, In v requiredEnvVars ->
              missing (ConfigService.get configService v) = false) ->
   checkEnvironment configService = Return tt).
Proof.
  split.
  - intros H. destruct (checkEach_throws _ _ H) as (v & Hin & Hm & Hc).
    exists v. split; [exact Hin |]. split; [exact Hm |].
    split; [exact Hc |]. split.
    + intros calls. apply bootstrap_after_throw. exact Hc.
    + rewrite (bootstrap_after_throw _ _ _ [] Hc). reflexivity.
  - intros H. apply checkEach_returns. exact H.
Qed.

(** C10: once [checkEnvironment] has returned, PORT is defined and not
    empty, and [bootstrap] calls [listen] exactly once, with the configured
    PORT string, and ends as that call ends; the fallback 6060 is never
    the argument. *)
Theorem listen_on_configured_port (listening : Port -> Completion unit)
  (configService : gmap string string) :
  checkEnvironment configService = Return tt ->
  exists port,
    ConfigService.get configService "PORT" = Some port /\
    port <> ""%string /\
    listened (fst (bootstrap listening configService [])) = [PortString port] /\
    snd (bootstrap listening configService []) = listening (PortString port) /\
    ~ In (PortNumber 6060)
        (listened (fst (bootstrap listening configService []))).
Proof.
  intros Hok.
  assert (Hport : missing (ConfigService.get configService "PORT") = false).
  { apply (proj2 (checkEach_returns requiredEnvVars configService) Hok).
    left. reflexivity. }
  destruct (ConfigService.get configService "PORT") as [port |] eqn:E;
    [| discriminate Hport].
  destruct (bootstrap_after_return listening configService [] Hok)
    as [Hl Hr].
  rewrite E in Hl, Hr.
  change (listened (fst (bootstrap listening configService []))
          = [PortString port]) in Hl.
  change (snd (bootstrap listening configService [])
          = listening (PortString port)) in Hr.
  exists port. split; [reflexivity |]. split.
  - intros ->. discriminate Hport.
  - rewrite Hl. split; [reflexivity |]. split; [exact Hr |].
    intros [Hin | []]. discriminate Hin.
Qed.

Lemma checkEnvironment_fail_fast_witness :
  (exists v, In v requiredEnvVars /\
     checkEnvironment emptyAudienceEnvironment
       = Throw (ErrorObj ("Undefined environment variable: " +:+ v)) /\
     listened
       (fst (bootstrap (fun _ => Return tt) emptyAudienceEnvironment []))
     = []) /\
  checkEnvironment testEnvironment = Return tt.
Proof.
  split.
  - destruct (proj1 (checkEnvironment_fail_fast (fun _ => Return tt)
                       emptyAudienceEnvironment))
      as (v & Hin & _ & Hc & _ & Hl).
    + exists "AUTH0_AUDIENCE"%string. split.
      * right. right. left. reflexivity.
      * vm_compute. reflexivity.
    + exists v. auto.
  - apply (proj2 (checkEnvironment_fail_fast (fun _ => Return tt)
                    testEnvironment)).
    intros v [<- | [<- | [<- | [<- | []]]]]; vm_compute; reflexivity.
Defined.

Lemma listen_on_configured_port_witness :
  let inUse : Port -> Completion unit :=
    fun _ => Throw (ErrorObj "listen EADDRINUSE") in
  exists port,
    ConfigService.get testEnvironment "PORT" = Some port /\
    listened (fst (bootstrap inUse testEnvironment [])) = [PortString port] /\
    snd (bootstrap inUse testEnvironment [])
      = Throw (ErrorObj "listen EADDRINUSE").
Proof.
  intros inUse.
  destruct (listen_on_configured_port inUse testEnvironment)
    as (port & Hp & _ & Hl & Hr & _).
  - vm_compute. reflexivity.
  - exists port. auto.
Defined.

End StartupProperties.

(* ------------------------------------------------------------------ *)
(** ** The message handlers *)

Section HandlerProperties.

Import Js MessagesController.

(** C8: the three handlers return their fixed payloads: the public route
    answers every request of any sequence with the public message, whatever
    the requests hold and whatever the guard would say, and the protected
    and admin routes answer with their own, different messages whenever the
    guard has allowed the request. *)
Theorem handlers_return_fixed_payloads
  (this : MessagesController.t) (canActivate : Request -> Completion bool) :
  getPublic this = Return {| text := "This is a public message." |} /\
  getProtected this = Return {| text := "This is a protected message." |} /\
  getAdmin this = Return {| text := "This is an admin message." |} /\
  (forall reqs : list Request,
     map (dispatch canActivate this public) reqs
     = repeat (Return {| text := "This is a public message." |})
         (length reqs)) /\
  (forall req : Request,
     canActivate req = Return true ->
     dispatch canActivate this protected req
       = Return {| text := "This is a protected message." |} /\
     dispatch canActivate this admin req
       = Return {| text := "This is an admin message." |}) /\
  getPublic this <> getProtected this /\
  getPublic this <> getAdmin this /\
  getProtected this <> getAdmin this.
Proof.
  split; [reflexivity |]. split; [reflexivity |]. split; [reflexivity |].
  split.
  { induction reqs as [| req reqs IH]; [reflexivity |].
    cbn [map length repeat]. rewrite IH. reflexivity. }
  split.
  { intros req Hallowed. unfold dispatch. cbn [useGuards].
    rewrite Hallowed. split; reflexivity. }
  repeat split; discriminate.
Qed.

Lemma handlers_return_fixed_payloads_witness :
  let allowAll : Request -> Completion bool := fun _ => Return true in
  let this := MessagesController.new MessagesService.new in
  let req := {| headers := []; user := None |} in
  dispatch allowAll this protected req
    = Return {| text := "This is a protected message." |} /\
  dispatch allowAll this admin req
    = Return {| text := "This is an admin message." |}.
Proof.
  intros allowAll this req.
  destruct (handlers_return_fixed_payloads this allowAll)
    as (_ & _ & _ & _ & Hguarded & _).
  apply (Hguarded req). reflexivity.
Defined.

End HandlerProperties.

(* ------------------------------------------------------------------ *)
(** ** Token verification under the strategy's options *)

Lemma constructor_algorithms (configService : gmap string string) :
  JwtStrategy.algorithms (JwtStrategy.constructor configService) = ["RS256"%string].
Proof. reflexivity. Qed.

Lemma constructor_ignoreExpiration (configService : gmap string string) :
  JwtStrategy.ignoreExpiration (JwtStrategy.constructor configService) = false.
Proof. reflexivity. Qed.

Section VerifierProperties.

Import Js TokenVerifier.

Variable Key : Type.
Variable decode : string -> option (Header * JwtStrategy.JwtPayload).
Variable resolveKey : option string -> Completion (option Key).
Variable signatureValid : Key -> string -> string -> bool.
Variable now : Z.

Abbreviation verifyWithKey := (TokenVerifier.verifyWithKey Key signatureValid now).
Abbreviation verify :=
  (TokenVerifier.verify Key decode resolveKey signatureValid now).
Abbreviation verifyRequest :=
  (TokenVerifier.verifyRequest Key decode resolveKey signatureValid now).
Abbreviation activate :=
  (TokenVerifier.activate Key decode resolveKey signatureValid now).
Abbreviation serve :=
  (TokenVerifier.serve Key decode resolveKey signatureValid now).

(** The checks as they run with the options the constructor builds. *)
Lemma verifyWithKey_constructor (configService : gmap string string)
  (token : string) (header : Header) (claims : JwtStrategy.JwtPayload)
  (key : Key) :
  let opts := JwtStrategy.constructor configService in
  verifyWithKey opts token header claims key =
  if negb (String.eqb (alg header) "RS256") then Failed SignatureInvalid
  else if negb (signatureValid key (alg header) token)
  then Failed SignatureInvalid
  else if expired now claims then Failed TokenExpired
  else if negb (audienceContains (JwtStrategy.audience opts) claims)
  then Failed AudienceMismatch
  else if negb (issuerEquals (JwtStrategy.issuer opts) claims)
  then Failed IssuerMismatch
  else Verified claims.
Proof.
  intros opts. unfold TokenVerifier.verifyWithKey.
  unfold opts at 1 2.
  rewrite constructor_algorithms, constructor_ignoreExpiration.
  cbn [existsb negb andb]. rewrite orb_false_r. reflexivity.
Qed.

Lemma verify_decoded (opts : JwtStrategy.StrategyOptions) (token : string)
  (header : Header) (claims : JwtStrategy.JwtPayload) :
  decode token = Some (header, claims) ->
  verify opts token =
  match resolveKey (kid header) with
  | Throw e => Throw e
  | Return None => Return (Failed KeyResolutionFailed)
  | Return (Some key) => Return (verifyWithKey opts token header claims key)
  end.
Proof.
  intros Hd. unfold TokenVerifier.verify. rewrite Hd.
  destruct (resolveKey (kid header)) as [[key |] | e]; reflexivity.
Qed.

(** A rejection reaches the client as the generic 401, on both guarded
    routes and for every reason. *)
Lemma serve_rejected (configService : gmap string string)
  (this : MessagesController.t) (r : MessagesController.Route)
  (req : MessagesController.Request) (reason : FailureReason) :
  MessagesController.useGuards r = true ->
  verifyRequest (JwtStrategy.constructor configService) req
    = Return (Failed reason) ->
  serve configService this r req = Caught requiresAuthentication.
Proof.
  intros Hg Hv. unfold TokenVerifier.serve, MessagesController.dispatch.
  rewrite Hg. unfold TokenVerifier.canActivate, TokenVerifier.activate.
  rewrite Hv. reflexivity.
Qed.

Lemma expired_iff (claims : JwtStrategy.JwtPayload) (e : Z) :
  prop "exp" claims = Some (Number e) ->
  expired now claims = true <-> e <= now.
Proof.
  intros He. unfold expired. rewrite He.
  rewrite negb_true_iff, Z.ltb_ge. reflexivity.
Qed.

(** C4: a token whose decoded header declares an algorithm other than
    RS256 is never verified under the strategy's options, whatever else
    the header and the claims hold and whatever the signature primitive
    answers; once its key is resolved the outcome is the signature
    failure. *)
Theorem other_algorithm_rejected (configService : gmap string string)
  (token : string) (header : Header) (claims : JwtStrategy.JwtPayload) :
  decode token = Some (header, claims) ->
  alg header <> "RS256"%string ->
  (forall accepted,
     verify (JwtStrategy.constructor configService) token
       <> Return (Verified accepted)) /\
  (forall key,
     resolveKey (kid header) = Return (Some key) ->
     verify (JwtStrategy.constructor configService) token
       = Return (Failed SignatureInvalid)).
Proof.
  intros Hd Halg.
  assert (Hne : String.eqb (alg header) "RS256" = false)
    by (apply String.eqb_neq; exact Halg).
  rewrite (verify_decoded _ _ _ _ Hd).
  split.
  - intros accepted.
    destruct (resolveKey (kid header)) as [[key |] | e]; try discriminate.
    rewrite verifyWithKey_constructor, Hne. discriminate.
  - intros key Hk. rewrite Hk, verifyWithKey_constructor, Hne. reflexivity.
Qed.


(** A verified token carries exactly the expected issuer and audience. *)
Lemma verified_issuer_exact (configService : gmap string string)
  (token : string) (accepted : JwtStrategy.JwtPayload) :
  verify (JwtStrategy.constructor configService) token
    = Return (Verified accepted) ->
  prop "iss" accepted
    = Some (Str (JwtStrategy.issuer (JwtStrategy.constructor configService))).
Proof.
  unfold TokenVerifier.verify.
  destruct (decode token) as [[header claims] |]; [| discriminate].
  destruct (resolveKey (kid header)) as [[key |] | err]; try discriminate.
  cbn [bind]. rewrite verifyWithKey_constructor.
  repeat match goal with
         | |- context [if ?c then _ else _] =>
             destruct c eqn:?; try discriminate
         end.
  intros [= <-].
  match goal with
  | H : negb (issuerEquals _ _) = false |- _ =>
      apply negb_false_iff in H; unfold issuerEquals in H
  end.
  destruct (prop "iss" claims) as [[| | | | | i | | | |] |];
    try discriminate.
  match goal with
  | H : String.eqb _ _ = true |- _ => apply String.eqb_eq in H; now subst
  end.
Qed.

End VerifierProperties.

Lemma other_algorithm_rejected_witness :
  let header := {| TokenVerifier.alg := "HS256";
                   TokenVerifier.kid := Some "key-1"%string |} in
  TokenVerifier.verify unit (fun _ => Some (header, []))
    (fun _ => Js.Return (Some tt)) (fun _ _ _ => true) 0
    (JwtStrategy.constructor testEnvironment) "header.claims.signature"
  = Js.Return (TokenVerifier.Failed TokenVerifier.SignatureInvalid).
Proof.
  intros header.
  destruct (other_algorithm_rejected unit (fun _ => Some (header, []))
              (fun _ => Js.Return (Some tt)) (fun _ _ _ => true) 0
              testEnvironment "header.claims.signature" header [])
    as [_ Hrejected].
  - reflexivity.
  - discriminate.
  - apply (Hrejected tt). reflexivity.
Defined.



(* ================================================================== *)
(** * Further properties of the code *)

(* ------------------------------------------------------------------ *)
(** ** [handleRequest]: every outcome *)

Section GuardOutcomes.

Import Js.

(** X1: [handleRequest] returns a value exactly when [err] is null or
    undefined and [user] is truthy, and the value is then [user]; so what
    reaches the request is never a falsy value, and never anything while an
    error is pending. *)
Theorem handleRequest_returns_iff
  (err user info context status u : Value) :
  JwtAuthGuard.handleRequest err user info context status = Return u <->
  (err = Null \/ err = Undefined) /\ truthy user = true /\ u = user.
Proof.
  unfold JwtAuthGuard.handleRequest. split.
  - destruct (notNullish err) eqn:Herr; [discriminate |].
    destruct (truthy user) eqn:Huser; cbn [negb]; [| discriminate].
    intros [= <-]. split; [apply notNullish_false; exact Herr | auto].
  - intros (Herr & Huser & ->). apply notNullish_false in Herr.
    rewrite Herr, Huser. reflexivity.
Qed.

(** X2: whatever [handleRequest] throws is either [err] itself (and then
    [err] is neither undefined nor null) or the generic 401 exception (and
    then [err] is null or undefined and [user] is falsy); [info], the
    context and the status argument never reach the thrown value. *)
Theorem handleRequest_throws_iff
  (err user info context status thrown : Value) :
  JwtAuthGuard.handleRequest err user info context status = Throw thrown <->
  (err <> Undefined /\ err <> Null /\ thrown = err) \/
  ((err = Null \/ err = Undefined) /\ truthy user = false /\
   thrown = HttpExceptionObj "UnauthorizedException" 401
              "Requires authentication").
Proof.
  unfold JwtAuthGuard.handleRequest. split.
  - destruct (notNullish err) eqn:Herr.
    + intros [= <-]. left. apply notNullish_true in Herr. tauto.
    + destruct (truthy user) eqn:Huser; cbn [negb]; [discriminate |].
      intros [= <-]. right. split; [apply notNullish_false; exact Herr |].
      split; reflexivity.
  - intros [(Hu & Hn & ->) | (Herr & Huser & ->)].
    + assert (H : notNullish err = true) by (apply notNullish_true; auto).
      rewrite H. reflexivity.
    + apply notNullish_false in Herr. rewrite Herr, Huser. reflexivity.
Qed.

End GuardOutcomes.

(* ------------------------------------------------------------------ *)
(** ** The filter: what the response depends on *)

Section FilterOutcomes.

Import Js HttpExceptionFilter.

(** X3: the response [catch] writes depends on the exception's status
    and, unless the status is 404 or 500, on its message, and on nothing
    else: two exceptions with the same status, and the same message or a
    status of 404 or 500, are answered identically, whatever their classes
    and whatever the two responses held before. *)
Theorem catch_depends_on_status_and_message
  (e1 e2 : Http.HttpException) (r1 r2 : Response ErrorMessage) :
  Http.getStatus e1 = Http.getStatus e2 ->
  Http.getStatus e1 = 404 \/ Http.getStatus e1 = 500 \/
    Http.message e1 = Http.message e2 ->
  catch e1 r1 = catch e2 r2.
Proof.
  intros Hst Hmsg. unfold catch, json, status. cbn [statusCode body].
  rewrite <- Hst, errorMessages_lookup.
  destruct (decide (Http.getStatus e1 = 404)); [reflexivity |].
  destruct (decide (Http.getStatus e1 = 500)); [reflexivity |].
  destruct Hmsg as [H | [H | H]]; try contradiction.
  cbn [nullish]. rewrite H. reflexivity.
Qed.

Lemma catch_depends_on_status_and_message_witness :
  catch (Http.mkHttpException "HttpException" 500 "Something broke") fresh
  = catch (Http.mkHttpException "InternalServerErrorException" 500
             "connection string leaked")
      (mkResponse (Some 200) None).
Proof.
  apply catch_depends_on_status_and_message.
  - reflexivity.
  - right. left. reflexivity.
Defined.

(** X4: the statuses whose message is replaced are 404 and 500 and no
    other: the written message differs from the exception's own message
    only at those two. *)
Theorem catch_replaces_only_404_and_500
  (exception : Http.HttpException) (response : Response ErrorMessage) :
  body (catch exception response)
    <> Some {| message := Http.message exception |} ->
  Http.getStatus exception = 404 \/ Http.getStatus exception = 500.
Proof.
  unfold catch, json, status. cbn [statusCode body].
  rewrite errorMessages_lookup. intros Hne.
  destruct (decide (Http.getStatus exception = 404)); [left; assumption |].
  destruct (decide (Http.getStatus exception = 500)); [right; assumption |].
  exfalso. apply Hne. reflexivity.
Qed.

Lemma catch_replaces_only_404_and_500_witness :
  Http.getStatus (Http.mkHttpException "HttpException" 500 "Something broke")
    = 404 \/
  Http.getStatus (Http.mkHttpException "HttpException" 500 "Something broke")
    = 500.
Proof.
  apply (catch_replaces_only_404_and_500
           (Http.mkHttpException "HttpException" 500 "Something broke") fresh).
  vm_compute. discriminate.
Defined.

(** X5: guard and filter composed: whenever [handleRequest] throws with
    [err] null or undefined, the thrown value is an [HttpException] and the
    filter answers it with status 401 and the body
    [{message: "Requires authentication"}]. *)
Theorem guard_rejection_answered_401
  (err user info context status thrown : Value)
  (response : Response ErrorMessage) :
  err = Null \/ err = Undefined ->
  JwtAuthGuard.handleRequest err user info context status = Throw thrown ->
  exists exception,
    thrown = Http.toValue exception /\
    catch exception response
    = mkResponse (Some 401) (Some {| message := "Requires authentication" |}).
Proof.
  intros Herr. apply notNullish_false in Herr.
  unfold JwtAuthGuard.handleRequest. rewrite Herr.
  destruct (truthy user); cbn [negb]; [discriminate |].
  intros [= <-].
  exists (Http.UnauthorizedException "Requires authentication").
  split; [reflexivity |].
  unfold catch, json, HttpExceptionFilter.status. cbn [statusCode body].
  rewrite errorMessages_lookup. reflexivity.
Qed.

Lemma guard_rejection_answered_401_witness :
  exists exception,
    HttpExceptionObj "UnauthorizedException" 401 "Requires authentication"
      = Http.toValue exception /\
    catch exception fresh
    = mkResponse (Some 401) (Some {| message := "Requires authentication" |}).
Proof.
  apply (guard_rejection_answered_401 Null (Boolean false)
           (Str "jwt expired") Undefined Undefined).
  - left. reflexivity.
  - reflexivity.
Defined.

End FilterOutcomes.

(* ------------------------------------------------------------------ *)
(** ** The strategy's options for every configuration *)

Section StrategyOutcomes.

Import Js.

(** X6: the strategy is built for every configuration, the issuer base
    URL and the audience being read as the empty string when unset: the
    expected issuer always ends with "/", the JWKS endpoint is always the
    issuer followed by ".well-known/jwks.json", and with no issuer base URL
    configured they are "/" and "/.well-known/jwks.json". *)
Theorem constructor_for_any_configuration
  (configService : gmap string string) :
  let opts := JwtStrategy.constructor configService in
  let uri := JwtStrategy.jwksUri (JwtStrategy.secretOrKeyProvider opts) in
  endsWith (JwtStrategy.issuer opts) "/" = true /\
  uri = JwtStrategy.issuer opts +:+ ".well-known/jwks.json" /\
  JwtStrategy.audience opts
    = ConfigService.get configService "AUTH0_AUDIENCE" ?? "" /\
  (ConfigService.get configService "AUTH0_ISSUER_BASE_URL" = None ->
   JwtStrategy.issuer opts = "/"%string /\
   uri = "/.well-known/jwks.json"%string).
Proof.
  unfold JwtStrategy.constructor.
  cbn [JwtStrategy.issuer JwtStrategy.jwksUri JwtStrategy.secretOrKeyProvider
       JwtStrategy.audience].
  set (base := ConfigService.get configService "AUTH0_ISSUER_BASE_URL" ?? "").
  split; [| split; [| split]].
  - destruct (endsWith base "/") eqn:E;
      [exact E | apply endsWith_append_slash].
  - destruct (endsWith base "/") eqn:E; [reflexivity |].
    symmetry. apply (append_assoc base "/").
  - reflexivity.
  - intros Hnone. unfold base. rewrite Hnone. split; reflexivity.
Qed.

Lemma constructor_for_any_configuration_witness :
  JwtStrategy.issuer (JwtStrategy.constructor ∅) = "/"%string /\
  JwtStrategy.jwksUri
    (JwtStrategy.secretOrKeyProvider (JwtStrategy.constructor ∅))
  = "/.well-known/jwks.json"%string.
Proof.
  destruct (constructor_for_any_configuration ∅) as (_ & _ & _ & Hunset).
  apply Hunset. reflexivity.
Defined.

(** X7: a base URL without a trailing "/" and the same base URL with one
    give the same options, JWKS endpoint and expected issuer included. *)
Theorem constructor_trailing_slash_insensitive
  (configService : gmap string string) (stem : string) :
  endsWith stem "/" = false ->
  JwtStrategy.constructor
    (<[ "AUTH0_ISSUER_BASE_URL"%string := stem ]> configService)
  = JwtStrategy.constructor
      (<[ "AUTH0_ISSUER_BASE_URL"%string := stem +:+ "/" ]> configService).
Proof.
  intros Hstem. unfold JwtStrategy.constructor, ConfigService.get.
  rewrite !lookup_insert_eq.
  rewrite !(lookup_insert_ne _ "AUTH0_ISSUER_BASE_URL" "AUTH0_AUDIENCE")
    by discriminate.
  cbn [nullish]. rewrite Hstem, endsWith_append_slash.
  rewrite (append_assoc stem "/"). reflexivity.
Qed.

Lemma constructor_trailing_slash_insensitive_witness :
  JwtStrategy.constructor
    (<[ "AUTH0_ISSUER_BASE_URL"%string := "https://test-tenant.auth0.com"%string ]>
       testEnvironment)
  = JwtStrategy.constructor
      (<[ "AUTH0_ISSUER_BASE_URL"%string :=
            ("https://test-tenant.auth0.com" +:+ "/")%string ]>
         testEnvironment).
Proof.
  apply (constructor_trailing_slash_insensitive testEnvironment
           "https://test-tenant.auth0.com").
  reflexivity.
Defined.

(** X8: the normalisation is idempotent: configuring the expected issuer
    of a strategy as the issuer base URL gives the same options again. *)
Theorem constructor_normalisation_idempotent
  (configService : gmap string string) :
  JwtStrategy.constructor
    (<[ "AUTH0_ISSUER_BASE_URL"%string :=
          JwtStrategy.issuer (JwtStrategy.constructor configService) ]>
       configService)
  = JwtStrategy.constructor configService.
Proof.
  unfold JwtStrategy.constructor, ConfigService.get.
  cbn [JwtStrategy.issuer].
  rewrite lookup_insert_eq.
  rewrite (lookup_insert_ne _ "AUTH0_ISSUER_BASE_URL" "AUTH0_AUDIENCE")
    by discriminate.
  set (base := configService !! "AUTH0_ISSUER_BASE_URL"%string ?? "").
  cbn [nullish].
  destruct (endsWith base "/") eqn:E.
  - rewrite E. reflexivity.
  - rewrite endsWith_append_slash, (append_assoc base "/"). reflexivity.
Qed.

End StrategyOutcomes.

(* ------------------------------------------------------------------ *)
(** ** Startup: which variable is named, and what is set up *)

Section StartupOutcomes.

Import Js Main.

Lemma append_inj_r (a v w : string) : a +:+ v = a +:+ w -> v = w.
Proof.
  induction a as [| x a IH]; [trivial |].
  change (String x (a +:+ v) = String x (a +:+ w) -> v = w).
  intros [= H]. apply IH, H.
Qed.

Lemma checkEach_first_missing (envVars : list string)
  (cfg : gmap string string) (e : Value) :
  checkEach envVars cfg = Throw e ->
  exists before v after,
    envVars = before ++ v :: after /\
    (forall w, In w before -> missing (ConfigService.get cfg w) = false) /\
    missing (ConfigService.get cfg v) = true /\
    e = ErrorObj ("Undefined environment variable: " +:+ v).
Proof.
  induction envVars as [| x rest IH]; cbn [checkEach]; [discriminate |].
  destruct (missing (ConfigService.get cfg x)) eqn:Hx.
  - intros [= <-]. exists [], x, rest.
    split; [reflexivity |]. split; [intros w [] | auto].
  - intros H. destruct (IH H) as (before & v & after & -> & Hb & Hv & ->).
    exists (x :: before), v, after. split; [reflexivity |].
    split; [| auto]. intros w [<- | Hw]; [exact Hx | apply Hb, Hw].
Qed.

Lemma checkEach_split (before after : list string) (v : string)
  (cfg : gmap string string) :
  (forall w, In w before -> missing (ConfigService.get cfg w) = false) ->
  missing (ConfigService.get cfg v) = true ->
  checkEach (before ++ v :: after) cfg
  = Throw (ErrorObj ("Undefined environment variable: " +:+ v)).
Proof.
  induction before as [| x before IH]; intros Hb Hv.
  - cbn [List.app checkEach]. rewrite Hv. reflexivity.
  - change ((x :: before) ++ v :: after) with (x :: (before ++ v :: after)).
    cbn [checkEach]. rewrite (Hb x (or_introl eq_refl)).
    apply IH; [| exact Hv]. intros w Hw. apply Hb. right. exact Hw.
Qed.

Lemma checkEach_agree (envVars : list string) (cfg cfg' : gmap string string) :
  (forall v, In v envVars ->
             ConfigService.get cfg v = ConfigService.get cfg' v) ->
  checkEach envVars cfg = checkEach envVars cfg'.
Proof.
  induction envVars as [| x rest IH]; intros H; [reflexivity |].
  cbn [checkEach]. rewrite (H x (or_introl eq_refl)).
  rewrite IH; [reflexivity |]. intros v Hv. apply H. right. exact Hv.
Qed.

(** X9: the error of [checkEnvironment] names the first variable, in the
    order PORT, AUTH0_ISSUER_BASE_URL, AUTH0_AUDIENCE, CLIENT_ORIGIN_URL,
    that is undefined or empty: it names [v] exactly when [v] is missing
    and every required variable listed before [v] is supplied. *)
Theorem checkEnvironment_names_first_missing
  (configService : gmap string string) (v : string) :
  checkEnvironment configService
    = Throw (ErrorObj ("Undefined environment variable: " +:+ v)) <->
  exists before after,
    requiredEnvVars = before ++ v :: after /\
    (forall w, In w before ->
               missing (ConfigService.get configService w) = false) /\
    missing (ConfigService.get configService v) = true.
Proof.
  unfold checkEnvironment. split.
  - intros H.
    destruct (checkEach_first_missing _ _ _ H)
      as (before & u & after & Hsplit & Hb & Hu & He).
    injection He as He. apply append_inj_r in He. subst u.
    exists before, after. auto.
  - intros (before & after & -> & Hb & Hv). apply checkEach_split; assumption.
Qed.

(** X10: startup reads the four required variables and no other: two
    configurations that agree on them pass or fail the check alike, and
    [bootstrap] makes the same calls and ends the same way on both,
    however [listen] ends. *)
Theorem startup_reads_only_required_variables
  (listening : Port -> Completion unit) (cfg cfg' : gmap string string) :
  (forall v, In v requiredEnvVars ->
             ConfigService.get cfg v = ConfigService.get cfg' v) ->
  checkEnvironment cfg = checkEnvironment cfg' /\
  forall calls,
    bootstrap listening cfg calls = bootstrap listening cfg' calls.
Proof.
  intros H.
  assert (Hc : checkEnvironment cfg = checkEnvironment cfg')
    by (apply checkEach_agree, H).
  split; [exact Hc |]. intros calls. unfold bootstrap.
  rewrite Hc.
  rewrite (H "CLIENT_ORIGIN_URL"%string), (H "PORT"%string);
    [reflexivity | |]; unfold requiredEnvVars; cbn [In]; auto.
Qed.

Lemma startup_reads_only_required_variables_witness :
  bootstrap (fun _ => Return tt)
    (<[ "NODE_ENV"%string := "test"%string ]> testEnvironment) []
  = bootstrap (fun _ => Return tt) testEnvironment [].
Proof.
  apply (startup_reads_only_required_variables (fun _ => Return tt)
           (<[ "NODE_ENV"%string := "test"%string ]> testEnvironment)
           testEnvironment).
  intros v [<- | [<- | [<- | [<- | []]]]]; vm_compute; reflexivity.
Defined.

(** X11: when the check passes, [bootstrap] makes exactly six calls after
    those already made, in this order: the global prefix "api", the global
    exception filter, nocache, CORS for the configured CLIENT_ORIGIN_URL
    (a non-empty string) with GET only, helmet, and last [listen] on the
    configured PORT; [bootstrap] ends as that [listen] call ends, returning
    when it returns and rejecting with its error when it rejects. *)
Theorem bootstrap_call_sequence (listening : Port -> Completion unit)
  (configService : gmap string string) :
  checkEnvironment configService = Return tt ->
  exists port clientOrigin,
    ConfigService.get configService "PORT" = Some port /\
    ConfigService.get configService "CLIENT_ORIGIN_URL" = Some clientOrigin /\
    clientOrigin <> ""%string /\
    forall calls,
      bootstrap listening configService calls =
      (calls ++
       [setGlobalPrefix "api";
        useGlobalFilters;
        use nocache;
        enableCors {| origin := Some clientOrigin;
                      methods := ["GET"%string];
                      allowedHeaders := ["Authorization"; "Content-Type"]%string;
                      maxAge := 86400 |};
        use (helmet {| hstsMaxAge := 31536000;
                       frameguardAction := "deny";
                       cspDirectives :=
                         [("default-src", ["'self'"]);
                          ("frame-ancestors", ["'none'"])]%string |});
        listen (PortString port)],
       listening (PortString port)).
Proof.
  intros Hok.
  pose proof (proj2 (checkEach_returns requiredEnvVars configService) Hok)
    as Hall.
  assert (Hp : missing (ConfigService.get configService "PORT") = false)
    by (apply Hall; unfold requiredEnvVars; cbn [In]; auto).
  assert (Ho : missing (ConfigService.get configService "CLIENT_ORIGIN_URL")
               = false)
    by (apply Hall; unfold requiredEnvVars; cbn [In]; auto 6).
  destruct (ConfigService.get configService "PORT") as [port |] eqn:Ep;
    [| discriminate Hp].
  destruct (ConfigService.get configService "CLIENT_ORIGIN_URL")
    as [clientOrigin |] eqn:Eo; [| discriminate Ho].
  exists port, clientOrigin. split; [reflexivity |]. split; [reflexivity |].
  split; [intros ->; discriminate Ho |].
  intros calls. unfold bootstrap, seq, lift, configure, app.
  rewrite Hok, Ep, Eo. cbn [fmap option_fmap option_map nullish].
  rewrite <- !app_assoc. reflexivity.
Qed.

Lemma bootstrap_call_sequence_witness :
  let badPort : Port -> Completion unit :=
    fun _ => Throw (ErrorObj "ERR_SOCKET_BAD_PORT") in
  exists port clientOrigin,
    ConfigService.get testEnvironment "PORT" = Some port /\
    ConfigService.get testEnvironment "CLIENT_ORIGIN_URL" = Some clientOrigin /\
    length (fst (bootstrap badPort testEnvironment [])) = 6%nat /\
    snd (bootstrap badPort testEnvironment [])
      = Throw (ErrorObj "ERR_SOCKET_BAD_PORT").
Proof.
  intros badPort.
  destruct (bootstrap_call_sequence badPort testEnvironment)
    as (port & clientOrigin & Hp & Ho & _ & Hcalls).
  - vm_compute. reflexivity.
  - exists port, clientOrigin. split; [exact Hp |]. split; [exact Ho |].
    rewrite (Hcalls []). split; reflexivity.
Defined.

End StartupOutcomes.

(* ------------------------------------------------------------------ *)
(** ** The test setup *)

Section JestSetupOutcomes.

Import Js Main.

Lemma assignDefault_lookup (name fallback k : string)
  (env : gmap string string) :
  JestSetup.assignDefault name fallback env !! k =
  match env !! k with
  | Some v => Some v
  | None => if decide (name = k) then Some fallback else None
  end.
Proof.
  unfold JestSetup.assignDefault. rewrite lookup_insert.
  destruct (decide (name = k)) as [-> | Hne].
  - destruct (env !! k); reflexivity.
  - destruct (env !! k); reflexivity.
Qed.

Lemma testEnvironment_lookup (k : string) :
  testEnvironment !! k =
  if decide ("PORT"%string = k) then Some "6061"%string
  else if decide ("CLIENT_ORIGIN_URL"%string = k)
       then Some "http://localhost:4040"%string
  else if decide ("AUTH0_AUDIENCE"%string = k)
       then Some "https://test-api.example.com"%string
  else if decide ("AUTH0_ISSUER_BASE_URL"%string = k)
       then Some "https://test-tenant.auth0.com/"%string
  else None.
Proof.
  unfold testEnvironment. cbn [list_to_map foldr fst snd uncurry].
  rewrite !lookup_insert, lookup_empty.
  repeat (case_decide; subst; try discriminate; try reflexivity).
Qed.

Lemma run_lookup (env : gmap string string) (k : string) :
  JestSetup.run env !! k =
  match env !! k with
  | Some v => Some v
  | None => testEnvironment !! k
  end.
Proof.
  unfold JestSetup.run. rewrite !assignDefault_lookup, testEnvironment_lookup.
  destruct (env !! k); [reflexivity |].
  repeat (case_decide; subst; try discriminate; try reflexivity).
Qed.

(** X12: the setup keeps every variable that is already set, the empty
    string included, gives each of the four variables it names its default
    only when unset, and touches no other variable: afterwards the
    environment is the old one completed by the four defaults. *)
Theorem jest_setup_completes_environment (env : gmap string string) :
  JestSetup.run env = env ∪ testEnvironment /\
  (forall k v, env !! k = Some v -> JestSetup.run env !! k = Some v) /\
  (forall k, env !! k = None ->
             JestSetup.run env !! k = testEnvironment !! k) /\
  JestSetup.run ∅ = testEnvironment.
Proof.
  assert (Hu : forall e : gmap string string,
             JestSetup.run e = e ∪ testEnvironment).
  { intros e. apply map_eq. intros k.
    rewrite run_lookup, lookup_union.
    destruct (e !! k), (testEnvironment !! k); reflexivity. }
  split; [apply Hu |]. split; [| split].
  - intros k v Hk. rewrite run_lookup, Hk. reflexivity.
  - intros k Hk. rewrite run_lookup, Hk. reflexivity.
  - rewrite Hu. apply (left_id_L ∅ (∪)).
Qed.

Lemma jest_setup_completes_environment_witness :
  JestSetup.run {[ "PORT"%string := "8080"%string ]} !! "PORT"%string
    = Some "8080"%string /\
  JestSetup.run {[ "PORT"%string := "8080"%string ]} !! "AUTH0_AUDIENCE"%string
    = Some "https://test-api.example.com"%string.
Proof.
  destruct (jest_setup_completes_environment
              {[ "PORT"%string := "8080"%string ]})
    as (_ & Hkept & Hfilled & _).
  split.
  - apply Hkept. apply lookup_singleton_eq.
  - rewrite Hfilled; [| apply lookup_singleton_ne; discriminate].
    vm_compute. reflexivity.
Defined.

(** X13: running the setup twice is the same as running it once. *)
Theorem jest_setup_idempotent (env : gmap string string) :
  JestSetup.run (JestSetup.run env) = JestSetup.run env.
Proof.
  apply map_eq. intros k. rewrite (run_lookup (JestSetup.run env)).
  rewrite run_lookup. destruct (env !! k); [reflexivity |].
  destruct (testEnvironment !! k); reflexivity.
Qed.

Lemma run_required_present (env : gmap string string) (v : string) :
  In v requiredEnvVars ->
  missing (ConfigService.get (JestSetup.run env) v) = false <->
  env !! v <> Some ""%string.
Proof.
  intros Hin. unfold ConfigService.get. rewrite run_lookup.
  destruct (env !! v) as [x |] eqn:E.
  - cbn [missing]. split.
    + intros H [= ->]. discriminate H.
    + intros H. apply String.eqb_neq. congruence.
  - split; [discriminate |]. intros _.
    destruct Hin as [<- | [<- | [<- | [<- | []]]]]; reflexivity.
Qed.

(** X14: after the setup the startup check passes exactly when none of
    the four required variables had been set to the empty string
    beforehand (an empty value is kept, not replaced by the default), and
    [bootstrap] then calls [listen] with the PORT that was set, or with
    "6061" when none was. *)
Theorem check_after_jest_setup (listening : Port -> Completion unit)
  (env : gmap string string) :
  (checkEnvironment (JestSetup.run env) = Return tt <->
   forall v, In v requiredEnvVars -> env !! v <> Some ""%string) /\
  (checkEnvironment (JestSetup.run env) = Return tt ->
   listened (fst (bootstrap listening (JestSetup.run env) []))
   = [PortString (env !! "PORT"%string ?? "6061"%string)]).
Proof.
  split.
  - unfold checkEnvironment. rewrite <- checkEach_returns. split.
    + intros H v Hv. apply (run_required_present env v Hv), H, Hv.
    + intros H v Hv. apply (run_required_present env v Hv), H, Hv.
  - intros Hok.
    destruct (bootstrap_after_return listening (JestSetup.run env) [] Hok)
      as [Hl _].
    rewrite Hl. unfold ConfigService.get. rewrite run_lookup.
    destruct (env !! "PORT"%string); reflexivity.
Qed.

Lemma check_after_jest_setup_witness :
  checkEnvironment (JestSetup.run ∅) = Return tt /\
  listened (fst (bootstrap (fun _ => Return tt) (JestSetup.run ∅) []))
  = [PortString "6061"].
Proof.
  destruct (check_after_jest_setup (fun _ => Return tt) ∅)
    as [Hiff Hlisten].
  assert (Hok : checkEnvironment (JestSetup.run ∅) = Return tt).
  { apply Hiff. intros v _. rewrite lookup_empty. discriminate. }
  split; [exact Hok | exact (Hlisten Hok)].
Defined.

End JestSetupOutcomes.

(* ------------------------------------------------------------------ *)
(** ** Guarded routes *)

Section DispatchOutcomes.

Import Js MessagesController.

(** The fixed payload of each route. *)
Lemma handler_payload (this : MessagesController.t) (r : Route) :
  handler this r =
  Return {| text := match r with
                    | public => "This is a public message."
                    | protected => "This is a protected message."
                    | admin => "This is an admin message."
                    end |}.
Proof. destruct r; reflexivity. Qed.

(** X15: on the protected and admin routes a payload is returned exactly
    when the guard returned true, and it is then the route's own message;
    when the guard throws, the handler does not run and the request ends
    with the value the guard threw. *)
Theorem guarded_route_needs_guard
  (canActivate : Request -> Completion bool) (this : MessagesController.t)
  (r : Route) (req : Request) :
  useGuards r = true ->
  (forall m, dispatch canActivate this r req = Return m <->
             canActivate req = Return true /\ handler this r = Return m) /\
  (forall thrown, canActivate req = Throw thrown ->
                  dispatch canActivate this r req = Throw thrown).
Proof.
  intros Hg. unfold dispatch. rewrite Hg. split.
  - intros m. rewrite handler_payload.
    destruct (canActivate req) as [[|] | e]; cbn [bind]; split;
      try discriminate; try tauto.
    + intros [H _]. discriminate H.
    + intros [H _]. discriminate H.
  - intros thrown ->. reflexivity.
Qed.

Lemma guarded_route_needs_guard_witness :
  let denyAll : Request -> Completion bool :=
    fun _ => Throw (HttpExceptionObj "UnauthorizedException" 401
                      "Requires authentication") in
  dispatch denyAll (MessagesController.new MessagesService.new) admin
    {| headers := []; user := None |}
  = Throw (HttpExceptionObj "UnauthorizedException" 401
             "Requires authentication").
Proof.
  intros denyAll.
  destruct (guarded_route_needs_guard denyAll
              (MessagesController.new MessagesService.new) admin
              {| headers := []; user := None |}) as [_ Hthrow].
  - reflexivity.
  - apply Hthrow. reflexivity.
Defined.

End DispatchOutcomes.
